(** * opac_ssm_api.client: a shallow embedding of the SSM client facade

    The Python module [opac_ssm_api/client.py] is a thin gRPC client.  Every
    public method validates its arguments, builds a wire message, calls one
    or two stub methods and maps the response back.  The embedding keeps

    - dynamically typed arguments as values of [pyval],
    - keyword arguments that may be left out as [option pyval], the default
      of the [def] line being applied inside the function,
    - exceptions and the remote side through a small state-and-error monad
      whose state carries the server and the chronological list of
      observable effects (log records, HTTP requests, stub calls). *)

From Stdlib Require Import Ascii String.
From stdpp Require Import gmap strings list pretty.

Set Warnings "-register-all".
Local Open Scope Z_scope.

(** ** Python values *)

(** The fragment of Python's object universe the client can tell apart:
    [isinstance(_, dict)], [isinstance(_, six.string_types)],
    [hasattr(_, 'read')], [_ is None] and truthiness.  A [PyStream d] is a
    file-like object whose [read()] returns [d]; a [PyObject] is any other
    object (always truthy, no [read] attribute). *)
Inductive pyval : Type :=
  | PyNone
  | PyBool (b : bool)
  | PyInt (z : Z)
  | PyStr (s : string)
  | PyBytes (b : list Byte.byte)
  | PyList (l : list pyval)
  | PyDict (kvs : list (pyval * pyval))
  | PyStream (data : pyval)
  | PyObject (name : string).

(** [bool(v)] *)
Definition truthy (v : pyval) : bool :=
  match v with
  | PyNone => false
  | PyBool b => b
  | PyInt z => negb (z =? 0)
  | PyStr s => match s with EmptyString => false | _ => true end
  | PyBytes b => match b with [] => false | _ => true end
  | PyList l => match l with [] => false | _ => true end
  | PyDict kvs => match kvs with [] => false | _ => true end
  | PyStream _ => true
  | PyObject _ => true
  end.

(** [isinstance(v, dict)] *)
Definition isinstance_dict (v : pyval) : bool :=
  match v with PyDict _ => true | _ => false end.

(** [isinstance(v, six.string_types)] *)
Definition isinstance_string_types (v : pyval) : bool :=
  match v with PyStr _ => true | _ => false end.

(** [hasattr(v, 'read')] *)
Definition hasattr_read (v : pyval) : bool :=
  match v with PyStream _ => true | _ => false end.

(** [v is None] *)
Definition is_None (v : pyval) : bool :=
  match v with PyNone => true | _ => false end.

(** ** [os.path.basename] *)

(** [posixpath.basename p] is [p[p.rfind('/') + 1:]]: [basename_from acc p]
    scans [p] and keeps in [acc] what follows the last slash seen. *)
Fixpoint basename_from (acc p : string) : string :=
  match p with
  | EmptyString => acc
  | String c rest =>
      if Ascii.eqb c "/"%char then basename_from rest rest
      else basename_from acc rest
  end.

Definition basename (p : string) : string := basename_from p p.

(** ** [json.dumps] with its default arguments *)

(** The double quote character, code point 34. *)
Definition dquote : ascii := ascii_of_N 34.

Definition hex_digit (n : N) : ascii :=
  match n with
  | 0 => "0" | 1 => "1" | 2 => "2" | 3 => "3" | 4 => "4" | 5 => "5"
  | 6 => "6" | 7 => "7" | 8 => "8" | 9 => "9" | 10 => "a" | 11 => "b"
  | 12 => "c" | 13 => "d" | 14 => "e" | _ => "f"
  end%N%char.

(** One character under [ensure_ascii=True]; strings are sequences of code
    points below 256. *)
Definition json_escape_char (c : ascii) : string :=
  let n := N_of_ascii c in
  if (n =? 34)%N then String "\"%char (String dquote EmptyString)
  else if (n =? 92)%N then "\\"
  else if (n =? 8)%N then "\b"
  else if (n =? 12)%N then "\f"
  else if (n =? 10)%N then "\n"
  else if (n =? 13)%N then "\r"
  else if (n =? 9)%N then "\t"
  else if ((32 <=? n) && (n <=? 126))%N then String c EmptyString
  else "\u00" +:+ String (hex_digit (n / 16)) (String (hex_digit (n mod 16)) EmptyString).

Fixpoint json_escape (s : string) : string :=
  match s with
  | EmptyString => EmptyString
  | String c rest => json_escape_char c +:+ json_escape rest
  end.

Definition json_quote (s : string) : string :=
  String dquote (json_escape s +:+ String dquote EmptyString).

(** Dictionary keys: [str] as is, [True]/[False]/[None] by name, [int] in
    decimal; any other key is a [TypeError]. *)
Definition json_key (k : pyval) : option string :=
  match k with
  | PyStr s => Some s
  | PyBool true => Some "true"
  | PyBool false => Some "false"
  | PyNone => Some "null"
  | PyInt z => Some (pretty z)
  | _ => None
  end.

Definition json_join (items : list string) : string :=
  String.concat ", " items.

(** [json_encode v] is [Some] of the text [json.dumps(v)] returns, [None]
    where [json.dumps] raises [TypeError]. *)
Fixpoint json_encode (v : pyval) : option string :=
  match v with
  | PyNone => Some "null"
  | PyBool true => Some "true"
  | PyBool false => Some "false"
  | PyInt z => Some (pretty z)
  | PyStr s => Some (json_quote s)
  | PyList l =>
      items ← (fix encode_items (l : list pyval) : option (list string) :=
                 match l with
                 | [] => Some []
                 | x :: rest =>
                     sx ← json_encode x;
                     srest ← encode_items rest;
                     Some (sx :: srest)
                 end) l;
      Some ("[" +:+ json_join items +:+ "]")
  | PyDict kvs =>
      items ← (fix encode_pairs (kvs : list (pyval * pyval)) : option (list string) :=
                 match kvs with
                 | [] => Some []
                 | (k, x) :: rest =>
                     sk ← json_key k;
                     sx ← json_encode x;
                     srest ← encode_pairs rest;
                     Some ((json_quote sk +:+ ": " +:+ sx) :: srest)
                 end) kvs;
      Some ("{" +:+ json_join items +:+ "}")
  | PyBytes _ | PyStream _ | PyObject _ => None
  end.

(** ** Wire messages, effects and the monad *)

(** The generated module [opac_pb2] is produced at run time from the
    server's protocol file and is not part of the source tree.  A message
    ([Asset], [TaskId], [BucketName] or a response) is the finite map of the
    keyword arguments given to its constructor. *)
Abbreviation message := (gmap string pyval).

(** Modelled from the spec: the wire shapes of section 6,
    [Asset{file: bytes, filename: string, type: string, metadata: string,
    bucket: string}], [TaskId{id: string}] and [BucketName{name: string,
    new_name: string}], give the value a field that was not set reads as. *)
Definition proto_default (field : string) : pyval :=
  if String.eqb field "file" then PyBytes [] else PyStr EmptyString.

(** [m.field] on a message object *)
Definition msg_attr (m : message) (field : string) : pyval :=
  default (proto_default field) (m !! field).

(** The message constructors the client calls with keyword arguments.
    Where [update_asset] unpacks its dictionary [update_params] into the
    [Asset] constructor, the message is that dictionary. *)
Module opac_pb2.
Definition Asset (file filename type metadata bucket : pyval) : message :=
  <["bucket" := bucket]> (<["metadata" := metadata]> (<["type" := type]>
  (<["filename" := filename]> {[ "file" := file ]}))).
Definition TaskId (id : pyval) : message := {[ "id" := id ]}.
Definition BucketName (name : pyval) (new_name : option pyval) : message :=
  match new_name with
  | Some new_name => <["new_name" := new_name]> {[ "name" := name ]}
  | None => {[ "name" := name ]}
  end.
End opac_pb2.

Inductive exn_class : Set :=
  | ValueError | IOError | TypeError | AttributeError | SchemaFetchError
  | RpcError.

Record exn : Type := Exn { exn_cls : exn_class; exn_msg : string }.

Inductive outcome (A : Type) : Type :=
  | Ret (a : A)
  | Raise (e : exn).
Arguments Ret {A} a.
Arguments Raise {A} e.

Inductive rpc_method : Set :=
  | m_add_asset | m_get_asset | m_get_asset_info | m_get_task_state
  | m_exists_asset | m_update_asset | m_remove_asset
  | m_add_bucket | m_add_update | m_exists_bucket | m_remove_bucket.

(** The stub methods that change the server's store. *)
Definition mutating (m : rpc_method) : bool :=
  match m with
  | m_add_asset | m_update_asset | m_remove_asset
  | m_add_bucket | m_add_update | m_remove_bucket => true
  | m_get_asset | m_get_asset_info | m_get_task_state
  | m_exists_asset | m_exists_bucket => false
  end.

Inductive log_level : Set := LError | LException.

Inductive event : Type :=
  | EvLog (lvl : log_level) (fmt : string) (args : list pyval)
  | EvHttpGet (url : string)
  | EvCompile (proto : string)
  | EvReload
  | EvChannel (target : string)
  | EvRpc (m : rpc_method) (request : message).

Definition is_rpc (e : event) : bool :=
  match e with EvRpc _ _ => true | _ => false end.

Definition is_mutation (e : event) : bool :=
  match e with EvRpc m _ => mutating m | _ => false end.

(** The stub calls of a trace, in order. *)
Definition remote_calls (tr : list event) : list event :=
  List.filter is_rpc tr.

(** The mutating stub calls of a trace, in order. *)
Definition mutations (tr : list event) : list event :=
  List.filter is_mutation tr.

Record world (S : Type) : Type :=
  World { server : S; trace : list event }.
Arguments World {S} server trace.
Arguments server {S} w.
Arguments trace {S} w.

(** A computation runs in a world and leaves a world behind, also when it
    raises: effects that happened before a [raise] stay in the trace. *)
Definition M (S A : Type) : Type := world S → outcome A * world S.

#[global] Instance M_ret {S} : MRet (M S) :=
  λ A a w, (Ret a, w).

#[global] Instance M_bind {S} : MBind (M S) :=
  λ A B k c w,
    match c w with
    | (Ret a, w') => k a w'
    | (Raise e, w') => (Raise e, w')
    end.

Definition raise {S A} (c : exn_class) (msg : string) : M S A :=
  λ w, (Raise (Exn c msg), w).

Definition emit {S} (e : event) : M S unit :=
  λ w, (Ret tt, World (server w) (trace w ++ [e])).

(** A remote procedure: request and server state in, response (or a
    transport or server error, passed on as it is) and new state out. *)
Definition rpc (S R : Type) : Type := message → S → outcome R * S.

(** Calling a stub method records the call and then runs the procedure. *)
Definition call {S R} (m : rpc_method) (f : rpc S R) (request : message) : M S R :=
  λ w,
    let '(r, s') := f request (server w) in
    (r, World s' (trace w ++ [EvRpc m request])).

(** The two generated stub classes.  The existence probes are used by the
    client only through the truth value of what they return. *)
Module AssetServiceStub.
Record t (S : Type) : Type := Build {
  add_asset : rpc S message;
  get_asset : rpc S message;
  get_asset_info : rpc S message;
  get_task_state : rpc S message;
  exists_asset : rpc S pyval;
  update_asset : rpc S message;
  remove_asset : rpc S message;
}.
Arguments Build {S}.
Arguments add_asset {S}.
Arguments get_asset {S}.
Arguments get_asset_info {S}.
Arguments get_task_state {S}.
Arguments exists_asset {S}.
Arguments update_asset {S}.
Arguments remove_asset {S}.
End AssetServiceStub.

Module BucketServiceStub.
Record t (S : Type) : Type := Build {
  add_bucket : rpc S message;
  add_update : rpc S message;
  exists_bucket : rpc S pyval;
  remove_bucket : rpc S message;
}.
Arguments Build {S}.
Arguments add_bucket {S}.
Arguments add_update {S}.
Arguments exists_bucket {S}.
Arguments remove_bucket {S}.
End BucketServiceStub.

(** ** The local file system *)

(** A regular file: whether [os.access(_, os.R_OK)] holds and what
    [open(_, 'rb').read()] returns. *)
Record file : Type := File { readable : bool; content : list Byte.byte }.

Abbreviation filesystem := (gmap string file).

(** ** Module-level configuration *)

(** [os.getenv(key, default)] *)
Definition os_getenv (environ : gmap string string) (key dflt : string) : string :=
  default dflt (environ !! key).

Definition HOST_NAME (environ : gmap string string) : string :=
  os_getenv environ "OPAC_SSM_GRPC_SERVER_HOST" "localhost".
Definition HOST_PORT (environ : gmap string string) : string :=
  os_getenv environ "OPAC_SSM_GRPC_SERVER_PORT" "5000".
Definition HTTP_PROTO_PORT (environ : gmap string string) : string :=
  os_getenv environ "OPAC_SSM_PORT" "8001".
Definition PROTO_PATH (environ : gmap string string) : string :=
  os_getenv environ "OPAC_SSM_PROTO_FILE_PATH" "/static/proto/opac.proto".

(** [s] between double quotes, for the messages that quote a parameter. *)
Definition quoted (s : string) : string :=
  String dquote (s +:+ String dquote EmptyString).

(** ** The schema provisioner *)

(** The address the protocol definition is served at. *)
Definition proto_url (host http_port proto_path : string) : string :=
  "http://" +:+ host +:+ ":" +:+ http_port +:+ proto_path.

(** Modelled from the spec: [utils.generate_pb_files] is imported from a
    module that is not in the source tree.  Section 4.1: it issues an HTTP
    GET to [http://{host}:{http_port}{proto_path}] to retrieve the protocol
    definition text, fails with a [SchemaFetchError] if the HTTP call does
    not succeed, and hands the text to the external compiler.  [http] gives
    the body served at a URL, [None] when the request fails. *)
Definition generate_pb_files {S} (http : string → option string)
    (host http_port proto_path : string) : M S unit :=
  let url := proto_url host http_port proto_path in
  _ ← emit (EvHttpGet url);
  match http url with
  | Some proto => emit (EvCompile proto)
  | None => raise SchemaFetchError url
  end.

(** ** class Client *)

Module Client.
Section client.
Context {S : Type}.

(** What the process runs in: its environment variables, the HTTP side of
    the server, the local files, and the stubs a channel to a target
    yields. *)
Variable environ : gmap string string.
Variable http : string → option string.
Variable fs : filesystem.
Variable opac_pb2_AssetServiceStub : string → AssetServiceStub.t S.
Variable opac_pb2_BucketServiceStub : string → BucketServiceStub.t S.

Record t : Type := New {
  channel : string;
  stubAsset : AssetServiceStub.t S;
  stubBucket : BucketServiceStub.t S;
}.

Definition log (lvl : log_level) (fmt : string) (args : list pyval) : M S unit :=
  emit (EvLog lvl fmt args).

(** [Client(host, port, proto_http_port, proto_path, update_pb_class)];
    the arguments are strings, as the defaults and the docstring have them. *)
Definition __init__ (host port proto_http_port proto_path : option string)
    (update_pb_class : option bool) : M S t :=
  let host := default (HOST_NAME environ) host in
  let port := default (HOST_PORT environ) port in
  let proto_http_port := default (HTTP_PROTO_PORT environ) proto_http_port in
  let proto_path := default (PROTO_PATH environ) proto_path in
  let update_pb_class := default false update_pb_class in
  _ ← (if update_pb_class then
         _ ← generate_pb_files http (HOST_NAME environ) (HTTP_PROTO_PORT environ)
               (PROTO_PATH environ);
         emit EvReload
       else mret tt);
  let target := host +:+ ":" +:+ port in
  _ ← emit (EvChannel target);
  mret (New target (opac_pb2_AssetServiceStub target)
                   (opac_pb2_BucketServiceStub target)).

(** [os.path.isfile(p)] and [os.access(p, os.R_OK)] on a path string. *)
Definition os_path_isfile (p : string) : bool :=
  match fs !! p with Some _ => true | None => false end.

Definition os_access_R_OK (p : string) : bool :=
  match fs !! p with Some f => readable f | None => false end.

(** [pfile.read()] *)
Definition read (pfile : pyval) : M S pyval :=
  match pfile with
  | PyStream data => mret data
  | _ => raise AttributeError "read"
  end.

(** The branch for a content source without a [read] attribute, the same
    lines in [add_asset] and [update_asset]: the path must name a readable
    regular file, whose base name and bytes are returned.  Only strings are
    taken as paths; on any other object [os.path.isfile] raises. *)
Definition read_path (pfile : pyval) : M S (pyval * pyval) :=
  match pfile with
  | PyStr p =>
      if os_path_isfile p && os_access_R_OK p then
        match fs !! p with
        | Some fp => mret (PyStr (basename p), PyBytes (content fp))
        | None => raise IOError p
        end
      else
        let error_msg := "The file pointed: (%s) is not a file or is unreadable." in
        _ ← log LError error_msg [pfile];
        raise IOError error_msg
  | _ => raise TypeError "stat: path should be string"
  end.

(** [json.dumps(metadata)] *)
Definition json_dumps (v : pyval) : M S string :=
  match json_encode v with
  | Some s => mret s
  | None => raise TypeError "Object is not JSON serializable"
  end.

Definition add_asset (self : t) (pfile : pyval)
    (filename filetype metadata bucket_name : option pyval) : M S pyval :=
  let filename := default (PyStr EmptyString) filename in
  let filetype := default (PyStr EmptyString) filetype in
  let metadata := default (PyStr EmptyString) metadata in
  let bucket_name := default (PyStr "UNKNOW") bucket_name in
  metadata ← (if negb (truthy metadata) then mret (PyDict [])
              else if negb (isinstance_dict metadata) then
                let error_msg := "Param " +:+ quoted "metadata" +:+ " must be a Dict or None." in
                _ ← log LError error_msg [];
                raise ValueError error_msg
              else mret metadata);
  '(filename, file_content) ←
    (if hasattr_read pfile then
       if negb (truthy filename) then
         let error_msg := "Param " +:+ quoted "filename" +:+ " is required" in
         _ ← log LError error_msg [];
         raise ValueError error_msg
       else
         file_content ← read pfile;
         mret (filename, file_content)
     else read_path pfile);
  encoded ← json_dumps metadata;
  let asset := opac_pb2.Asset file_content filename filetype (PyStr encoded)
                 bucket_name in
  response ← call m_add_asset (AssetServiceStub.add_asset (stubAsset self)) asset;
  mret (msg_attr response "id").

(** The guard every id and name argument goes through:
    [if not isinstance(v, six.string_types): ... raise ValueError(msg)],
    with a log record where the method writes one. *)
Definition require_string (v : pyval) (logged : bool) (msg : string) : M S unit :=
  if negb (isinstance_string_types v) then
    _ ← (if logged then log LException msg [] else mret tt);
    raise ValueError msg
  else mret tt.

Definition get_asset (self : t) (id : pyval) : M S message :=
  _ ← require_string id true "Param id must be a str|unicode.";
  asset ← call m_get_asset (AssetServiceStub.get_asset (stubAsset self))
            (opac_pb2.TaskId id);
  mret (<["bucket" := msg_attr asset "bucket"]> (<["uuid" := msg_attr asset "uuid"]>
       (<["metadata" := msg_attr asset "metadata"]> (<["type" := msg_attr asset "type"]>
       (<["filename" := msg_attr asset "filename"]>
       {[ "file" := msg_attr asset "file" ]}))))).

Definition get_asset_info (self : t) (id : pyval) : M S message :=
  _ ← require_string id true "Param id must be a str|unicode.";
  asset_info ← call m_get_asset_info (AssetServiceStub.get_asset_info (stubAsset self))
                 (opac_pb2.TaskId id);
  mret (<["url_path" := msg_attr asset_info "url_path"]>
       {[ "url" := msg_attr asset_info "url" ]}).

Definition get_task_state (self : t) (id : pyval) : M S pyval :=
  _ ← require_string id true "Param id must be a str|unicode.";
  task_state ← call m_get_task_state (AssetServiceStub.get_task_state (stubAsset self))
                 (opac_pb2.TaskId id);
  mret (msg_attr task_state "state").

(** [update_asset] returns the id of the response, or falls off its end
    (Python's [None], here [None]) when the probe fails. *)
Definition update_asset (self : t) (uuid : pyval)
    (pfile filename filetype metadata bucket_name : option pyval)
    : M S (option pyval) :=
  let pfile := default PyNone pfile in
  let filename := default PyNone filename in
  let filetype := default PyNone filetype in
  let metadata := default PyNone metadata in
  let bucket_name := default PyNone bucket_name in
  _ ← require_string uuid false ("Param " +:+ quoted "uuid" +:+ " must be a str|unicode.");
  let update_params : message := ∅ in
  found ← call m_exists_asset (AssetServiceStub.exists_asset (stubAsset self))
            (opac_pb2.TaskId uuid);
  if truthy found then
    update_params ←
      (if negb (truthy metadata) then
         mret (<["metadata" := PyDict []]> update_params)
       else if negb (isinstance_dict metadata) then
         let error_msg := "Param " +:+ quoted "metadata" +:+ " must be a Dict or None." in
         _ ← log LException error_msg [];
         raise ValueError error_msg
       else
         encoded ← json_dumps metadata;
         mret (<["metadata" := PyStr encoded]> update_params));
    update_params ←
      (if negb (is_None pfile) then
         '(filename, file_content) ←
           (if hasattr_read pfile then
              if negb (truthy filename) then
                let error_msg := "Param " +:+ quoted "filename" +:+ " is required" in
                _ ← log LException error_msg [];
                raise IOError error_msg
              else
                file_content ← read pfile;
                mret (filename, file_content)
            else read_path pfile);
         mret (<["filename" := filename]> (<["file" := file_content]> update_params))
       else mret update_params);
    let update_params :=
      if truthy filetype then <["type" := filetype]> update_params
      else update_params in
    let update_params :=
      if truthy bucket_name then <["bucket" := bucket_name]> update_params
      else update_params in
    response ← call m_update_asset (AssetServiceStub.update_asset (stubAsset self))
                 update_params;
    mret (Some (msg_attr response "id"))
  else
    let error_msg := "Dont exist asset with id: %s" in
    _ ← log LError error_msg [uuid];
    mret None.

Definition remove_asset (self : t) (id : pyval) : M S (option message) :=
  _ ← require_string id false ("Param " +:+ quoted "id" +:+ " must be a str|unicode.");
  found ← call m_exists_asset (AssetServiceStub.exists_asset (stubAsset self))
            (opac_pb2.TaskId id);
  if truthy found then
    response ← call m_remove_asset (AssetServiceStub.remove_asset (stubAsset self))
                 (opac_pb2.TaskId id);
    mret (Some response)
  else mret None.

Definition add_bucket (self : t) (name : pyval) : M S pyval :=
  _ ← require_string name true "Param name must be a str|unicode.";
  response ← call m_add_bucket (BucketServiceStub.add_bucket (stubBucket self))
               (opac_pb2.BucketName name None);
  mret (msg_attr response "id").

Definition update_bucket (self : t) (name new_name : pyval) : M S pyval :=
  _ ← require_string name true "Param name must be a str|unicode.";
  _ ← require_string new_name true "Param new_name must be a str|unicode.";
  response ← call m_add_update (BucketServiceStub.add_update (stubBucket self))
               (opac_pb2.BucketName name (Some new_name));
  mret (msg_attr response "id").

Definition remove_bucket (self : t) (name : pyval) : M S (option message) :=
  _ ← require_string name false ("Param " +:+ quoted "name" +:+ " must be a str|unicode.");
  found ← call m_exists_bucket (BucketServiceStub.exists_bucket (stubBucket self))
            (opac_pb2.BucketName name None);
  if truthy found then
    response ← call m_remove_bucket (BucketServiceStub.remove_bucket (stubBucket self))
                 (opac_pb2.BucketName name None);
    mret (Some response)
  else mret None.

End client.

Arguments t : clear implicits.
Arguments New {S}.
Arguments channel {S}.
Arguments stubAsset {S}.
Arguments stubBucket {S}.
End Client.

(** ** A storing server *)

(** Modelled from the spec: the remote SSM service is an external
    collaborator (section 1).  For the round trip of section 8 it is taken
    to store the wire message it is given under a fresh id and to hand the
    stored message back; buckets are a set of names with ids. *)
Module EchoServer.

Record state : Type := State {
  assets : gmap string message;
  buckets : gmap string string;
  issued : nat;
}.

Definition empty : state := State ∅ ∅ 0.

Definition fresh (prefix : string) (σ : state) : string :=
  prefix +:+ pretty (issued σ).

Definition key (request : message) (field : string) : string :=
  match request !! field with Some (PyStr s) => s | _ => EmptyString end.

Definition not_found {R} (σ : state) : outcome R * state :=
  (Raise (Exn RpcError "NOT_FOUND"), σ).

Definition add_asset : rpc state message := λ request σ,
  let id := fresh "asset-" σ in
  (Ret {[ "id" := PyStr id ]},
   State (<[id := <["uuid" := PyStr id]> request]> (assets σ)) (buckets σ)
         (Datatypes.S (issued σ))).

Definition get_asset : rpc state message := λ request σ,
  match assets σ !! key request "id" with
  | Some asset => (Ret asset, σ)
  | None => not_found σ
  end.

Definition get_asset_info : rpc state message := λ request σ,
  match assets σ !! key request "id" with
  | Some asset =>
      let path := "/media/" +:+ key request "id" in
      (Ret (<["url_path" := PyStr path]> {[ "url" := PyStr ("http://ssm" +:+ path) ]}), σ)
  | None => not_found σ
  end.

Definition get_task_state : rpc state message := λ request σ,
  match assets σ !! key request "id" with
  | Some _ => (Ret {[ "state" := PyStr "SUCCESS" ]}, σ)
  | None => (Ret {[ "state" := PyStr "PENDING" ]}, σ)
  end.

Definition exists_asset : rpc state pyval := λ request σ,
  (Ret (PyBool (bool_decide (is_Some (assets σ !! key request "id")))), σ).

(** The update message carries no id (the client does not send one), so
    there is nothing to look up: the fields are acknowledged as they are. *)
Definition update_asset : rpc state message := λ request σ,
  (Ret {[ "id" := msg_attr request "uuid" ]}, σ).

Definition remove_asset : rpc state message := λ request σ,
  (Ret ∅, State (delete (key request "id") (assets σ)) (buckets σ) (issued σ)).

Definition add_bucket : rpc state message := λ request σ,
  let id := fresh "bucket-" σ in
  (Ret {[ "id" := PyStr id ]},
   State (assets σ) (<[key request "name" := id]> (buckets σ))
         (Datatypes.S (issued σ))).

Definition add_update : rpc state message := λ request σ,
  match buckets σ !! key request "name" with
  | Some id =>
      (Ret {[ "id" := PyStr id ]},
       State (assets σ)
             (<[key request "new_name" := id]> (delete (key request "name") (buckets σ)))
             (issued σ))
  | None => not_found σ
  end.

Definition exists_bucket : rpc state pyval := λ request σ,
  (Ret (PyBool (bool_decide (is_Some (buckets σ !! key request "name")))), σ).

Definition remove_bucket : rpc state message := λ request σ,
  (Ret ∅, State (assets σ) (delete (key request "name") (buckets σ)) (issued σ)).

Definition stubAsset : AssetServiceStub.t state :=
  AssetServiceStub.Build add_asset get_asset get_asset_info get_task_state
    exists_asset update_asset remove_asset.

Definition stubBucket : BucketServiceStub.t state :=
  BucketServiceStub.Build add_bucket add_update exists_bucket remove_bucket.

(** A client connected to the storing server. *)
Definition client : Client.t state :=
  Client.New "localhost:5000" stubAsset stubBucket.

Definition start : world state := World empty [].

End EchoServer.


(** ** Observations on a run *)

(** What a run from [w] to [w'] added to the trace. *)
Definition new_events {S} (w w' : world S) : list event :=
  drop (length (trace w)) (trace w').

(** The run [r], started in [w], raised an exception of class [c] without
    a stub call: the server is untouched and what was added to the trace
    holds no remote call. *)
Definition fails_before_remote {S A} (c : exn_class) (w : world S)
    (r : outcome A * world S) : Prop :=
  ∃ msg evs,
    r = (Raise (Exn c msg), World (server w) (trace w ++ evs)) ∧
    remote_calls evs = [].

(** The metadata [add_asset] goes on with: a falsy argument is replaced by
    the empty dictionary (client.py, lines 64-65). *)
Definition effective_metadata (metadata : pyval) : pyval :=
  if truthy metadata then metadata else PyDict [].

(** ** Concrete inputs *)

Module Sample.

Definition abc : list Byte.byte := [Byte.x61; Byte.x62; Byte.x63].

(** An open stream holding the bytes [abc]. *)
Definition stream : pyval := PyStream (PyBytes abc).

(** The metadata mapping of the round trip of section 8. *)
Definition a1 : pyval := PyDict [(PyStr "a", PyInt 1)].

(** A file system with one readable and one unreadable file. *)
Definition disk : filesystem :=
  <["/srv/private.key" := File false abc]>
    {[ "/srv/docs/report.pdf" := File true abc ]}.

(** A storing server that holds one asset and one bucket. *)
Definition stored : world EchoServer.state :=
  World (EchoServer.State
           {[ "asset-0" := <["uuid" := PyStr "asset-0"]>
                (opac_pb2.Asset (PyBytes abc) (PyStr "a.txt") (PyStr "text")
                   (PyStr "{}") (PyStr "UNKNOW")) ]}
           {[ "photos" := "bucket-1" ]} 2) [].

(** A server that answers every schema request. *)
Definition served (url : string) : option string := Some "syntax = proto3;".

End Sample.

(** ** Further observations and inputs *)

(** Whether a string holds a slash. *)
Fixpoint has_slash (s : string) : bool :=
  match s with
  | EmptyString => false
  | String c rest => Ascii.eqb c "/"%char || has_slash rest
  end.

(** The keys [update_asset] can put into [update_params]. *)
Definition update_keys : gset string :=
  {[ "metadata"; "file"; "filename"; "type"; "bucket" ]}.

(** A server that cannot be reached: every remote procedure raises the
    transport's error and leaves nothing behind. *)
Module Offline.

Definition unavailable {R} : rpc unit R :=
  λ _ σ, (Raise (Exn RpcError "UNAVAILABLE"), σ).

Definition stubAsset : AssetServiceStub.t unit :=
  AssetServiceStub.Build unavailable unavailable unavailable unavailable
    unavailable unavailable unavailable.

Definition stubBucket : BucketServiceStub.t unit :=
  BucketServiceStub.Build unavailable unavailable unavailable unavailable.

Definition client : Client.t unit :=
  Client.New "localhost:5000" stubAsset stubBucket.

Definition start : world unit := World tt [].

End Offline.

Module Fixture.


(** An HTTP side that answers no request. *)
Definition unreachable (url : string) : option string := None.

End Fixture.

(** The run [r], started in [w], was one call of the remote procedure [f]
    and nothing else: the world it leaves is the one the procedure leaves,
    with the call recorded, and it raises exactly what the procedure
    raises. *)
Definition forwards {S A R} (m : rpc_method) (f : rpc S R) (request : message)
    (w : world S) (r : outcome A * world S) : Prop :=
  r.2 = World (f request (server w)).2 (trace w ++ [EvRpc m request]) ∧
  ∀ e, r.1 = Raise e ↔ (f request (server w)).1 = Raise e.

(** The dictionary [update_asset] builds between lines 189 and 228, as a
    function of what goes into it: the metadata field, the resolved content
    (filename and bytes) when a content source was given, and the type and
    bucket arguments, which are put in only when truthy. *)
Definition update_params (metadata : pyval) (resolved : option (pyval * pyval))
    (filetype bucket_name : pyval) : message :=
  let params : message := <["metadata" := metadata]> ∅ in
  let params :=
    match resolved with
    | Some (filename, file_content) =>
        <["filename" := filename]> (<["file" := file_content]> params)
    | None => params
    end in
  let params := if truthy filetype then <["type" := filetype]> params else params in
  if truthy bucket_name then <["bucket" := bucket_name]> params else params.

(** What the content-source lines of [add_asset] and [update_asset] resolve
    a source to when they do not raise: a stream, with a truthy filename, to
    that filename and what [read()] gives; a path of a readable regular
    file to its base name and its bytes. *)
Definition resolves_to (fs : filesystem) (pfile filename name file_content : pyval)
    : Prop :=
  match pfile with
  | PyStream data =>
      truthy filename = true ∧ name = filename ∧ file_content = data
  | PyStr path =>
      ∃ fp, fs !! path = Some fp ∧ readable fp = true ∧
            name = PyStr (basename path) ∧ file_content = PyBytes (content fp)
  | _ => False
  end.

(** The keys of the dictionary [get_asset] returns. *)
Definition asset_keys : gset string :=
  {[ "file"; "filename"; "type"; "metadata"; "uuid"; "bucket" ]}.

(** * Properties *)

Create HintDb client.

Ltac unfold_client :=
  unfold Client.add_asset, Client.get_asset, Client.get_asset_info,
    Client.get_task_state, Client.update_asset, Client.remove_asset,
    Client.add_bucket, Client.update_bucket, Client.remove_bucket,
    Client.require_string, Client.log, Client.read, Client.read_path,
    Client.json_dumps, Client.os_path_isfile, Client.os_access_R_OK,
    call, emit, raise, mbind, M_bind, mret, M_ret in *.

(** One case split of a run: on a truth test, a file lookup, an encoding
    or the answer of a remote procedure. *)
Ltac branch :=
  match goal with
  | |- context [truthy ?v] => destruct (truthy v) eqn:?
  | |- context [isinstance_dict ?v] => destruct (isinstance_dict v) eqn:?
  | |- context [isinstance_string_types ?v] =>
      destruct (isinstance_string_types v) eqn:?
  | |- context [is_None ?v] => destruct (is_None v) eqn:?
  | |- context [@lookup _ _ filesystem _ ?p ?fs] => destruct (fs !! p) eqn:?
  | |- context [readable ?f] => destruct (readable f) eqn:?
  | |- context [json_encode ?v] => destruct (json_encode v) eqn:?
  | |- context [let '(_, _) := ?f ?request ?σ in _] =>
      destruct (f request σ) as [[? | ?] ?] eqn:?
  end; simpl.

Lemma new_events_app {S} (w : world S) (σ : S) (evs : list event) :
  new_events w (World σ (trace w ++ evs)) = evs.
Proof. unfold new_events; simpl. apply drop_app_length. Qed.

Lemma world_eta {S} (w : world S) : w = World (server w) (trace w ++ []).
Proof. destruct w; simpl; by rewrite app_nil_r. Qed.

Lemma fails_quiet {S A} (c : exn_class) (w : world S) (msg : string) :
  fails_before_remote (A := A) c w (Raise (Exn c msg), w).
Proof. exists msg, []. split; [by rewrite <- world_eta | done]. Qed.

Lemma fails_logged {S A} (c : exn_class) (w : world S) (msg : string)
    (lvl : log_level) (fmt : string) (args : list pyval) :
  fails_before_remote (A := A) c w
    (Raise (Exn c msg), World (server w) (trace w ++ [EvLog lvl fmt args])).
Proof. by exists msg, [EvLog lvl fmt args]. Qed.

#[local] Hint Resolve fails_quiet fails_logged : client.

(** C5. An id or name argument that is not a string makes [get_asset],
    [get_asset_info], [get_task_state], [update_asset], [remove_asset],
    [add_bucket], [update_bucket] (in either position) and [remove_bucket]
    raise [ValueError] before any stub method is invoked. *)
Theorem non_string_id_raises_before_any_stub_call
    {S} (fs : filesystem) (self : Client.t S) (v : pyval) (w : world S) :
  isinstance_string_types v = false →
  fails_before_remote ValueError w (Client.get_asset self v w) ∧
  fails_before_remote ValueError w (Client.get_asset_info self v w) ∧
  fails_before_remote ValueError w (Client.get_task_state self v w) ∧
  (∀ pfile filename filetype metadata bucket_name,
     fails_before_remote ValueError w
       (Client.update_asset fs self v pfile filename filetype metadata bucket_name w)) ∧
  fails_before_remote ValueError w (Client.remove_asset self v w) ∧
  fails_before_remote ValueError w (Client.add_bucket self v w) ∧
  (∀ other, fails_before_remote ValueError w (Client.update_bucket self v other w)) ∧
  (∀ other, fails_before_remote ValueError w (Client.update_bucket self other v w)) ∧
  fails_before_remote ValueError w (Client.remove_bucket self v w).
Proof.
  intros Hv. repeat split; intros; unfold_client; rewrite ?Hv; simpl;
    auto with client.
  destruct (isinstance_string_types other); simpl; rewrite ?Hv; simpl;
    auto with client.
Qed.

Lemma non_string_id_raises_witness :
  isinstance_string_types (PyInt 7) = false ∧
  fails_before_remote ValueError Sample.stored
    (Client.get_asset EchoServer.client (PyInt 7) Sample.stored).
Proof.
  split; [reflexivity |].
  apply (non_string_id_raises_before_any_stub_call ∅ EchoServer.client (PyInt 7)
           Sample.stored).
  reflexivity.
Defined.






(** Whatever the constructor is given, a forced refresh requests the
    protocol definition from the address built out of the module-level
    constants [HOST_NAME], [HTTP_PROTO_PORT] and [PROTO_PATH]. *)
Lemma forced_refresh_uses_module_constants
    {S} (environ : gmap string string) (http : string → option string)
    (stub_a : string → AssetServiceStub.t S) (stub_b : string → BucketServiceStub.t S)
    (host port proto_http_port proto_path : option string) (w : world S) :
  head (new_events w
          (Client.__init__ environ http stub_a stub_b host port proto_http_port
             proto_path (Some true) w).2)
  = Some (EvHttpGet (proto_url (HOST_NAME environ) (HTTP_PROTO_PORT environ)
                       (PROTO_PATH environ))).
Proof.
  unfold Client.__init__, generate_pb_files. unfold_client. simpl.
  destruct (http _); simpl; rewrite <- ?app_assoc; by rewrite new_events_app.
Qed.

(** C3 at a failing input.  A client built for host [ssm.example.org] with
    schema port 9000 and schema path [/opac.proto], asked to refresh, opens
    its channel to the given host but fetches the schema from
    [http://localhost:8001/static/proto/opac.proto], not from
    [http://ssm.example.org:9000/opac.proto]. *)
Theorem forced_refresh_ignores_constructor_arguments :
  trace (Client.__init__ ∅ Sample.served (λ _, EchoServer.stubAsset)
           (λ _, EchoServer.stubBucket) (Some "ssm.example.org") (Some "5000")
           (Some "9000") (Some "/opac.proto") (Some true) EchoServer.start).2
  = [EvHttpGet "http://localhost:8001/static/proto/opac.proto";
     EvCompile "syntax = proto3;"; EvReload;
     EvChannel "ssm.example.org:5000"] ∧
  proto_url "ssm.example.org" "9000" "/opac.proto"
  = "http://ssm.example.org:9000/opac.proto" ∧
  EvHttpGet (proto_url "ssm.example.org" "9000" "/opac.proto")
  ∉ trace (Client.__init__ ∅ Sample.served (λ _, EchoServer.stubAsset)
             (λ _, EchoServer.stubBucket) (Some "ssm.example.org") (Some "5000")
             (Some "9000") (Some "/opac.proto") (Some true) EchoServer.start).2.
Proof.
  split; [reflexivity |]. split; [reflexivity |].
  vm_compute. intros Hin.
  repeat (apply elem_of_cons in Hin as [Hin | Hin]; [discriminate Hin |]).
  by apply elem_of_nil in Hin.
Qed.






Lemma msg_attr_singleton (field : string) (v : pyval) :
  msg_attr {[ field := v ]} field = v.
Proof. unfold msg_attr. by rewrite lookup_singleton_eq. Qed.

Lemma echo_key_TaskId (id : string) :
  EchoServer.key (opac_pb2.TaskId (PyStr id)) "id" = id.
Proof. unfold EchoServer.key, opac_pb2.TaskId. by rewrite lookup_singleton_eq. Qed.

(** [get_asset] hands the metadata field of the answer over as it is. *)
Lemma get_asset_metadata_verbatim
    {S} (self : Client.t S) (id : pyval) (w w' : world S) (result : message) :
  Client.get_asset self id w = (Ret result, w') →
  ∃ asset σ',
    AssetServiceStub.get_asset (Client.stubAsset self) (opac_pb2.TaskId id) (server w)
      = (Ret asset, σ') ∧
    result !! "metadata" = Some (msg_attr asset "metadata").
Proof.
  unfold_client. destruct (isinstance_string_types id); simpl; [| done].
  destruct (AssetServiceStub.get_asset _ _ _) as [[asset | e] σ'] eqn:Hget;
    simpl; [| done].
  intros [= <- _]. exists asset, σ'. split; [done |].
  by rewrite lookup_insert_ne, lookup_insert_ne, lookup_insert_eq.
Qed.

(** C7. Against the storing server, an asset added with the metadata
    mapping [{"a": 1}] comes back from [get_asset] with its metadata field
    equal to the JSON text [{"a": 1}], a string: encoded on the way out,
    not decoded on the way back. *)
Theorem metadata_round_trip
    (fs : filesystem) (σ : EchoServer.state) (tr : list event) (pfile : pyval)
    (filename filetype bucket_name : option pyval) (id : pyval)
    (w1 : world EchoServer.state) :
  Client.add_asset fs EchoServer.client pfile filename filetype
    (Some (PyDict [(PyStr "a", PyInt 1)])) bucket_name (World σ tr) = (Ret id, w1) →
  ∃ result w2,
    Client.get_asset EchoServer.client id w1 = (Ret result, w2) ∧
    result !! "metadata" = Some (PyStr ("{" +:+ quoted "a" +:+ ": 1}")).
Proof.
  unfold Client.add_asset, mbind, M_bind, mret, M_ret. simpl.
  destruct (if hasattr_read pfile then _ else _) as [[[name body] |] w0] eqn:Hsrc;
    [| done].
  assert (server w0 = σ) as Hσ.
  { revert Hsrc. unfold_client. destruct pfile; simpl;
      repeat (case_match; simpl); try done; by intros [= _ _ <-]. }
  unfold Client.json_dumps, call, mret, M_ret. simpl.
  rewrite Hσ. intros [= <- <-].
  eexists _, _. split.
  - unfold_client. simpl. rewrite msg_attr_singleton. simpl.
    unfold EchoServer.get_asset. rewrite echo_key_TaskId. simpl.
    rewrite lookup_insert_eq. reflexivity.
  - reflexivity.
Qed.

Lemma metadata_round_trip_witness :
  ∃ result w2,
    Client.get_asset EchoServer.client (PyStr "asset-0")
      (Client.add_asset Sample.disk EchoServer.client Sample.stream
         (Some (PyStr "a.txt")) None (Some (PyDict [(PyStr "a", PyInt 1)])) None
         EchoServer.start).2
    = (Ret result, w2) ∧
    result !! "metadata" = Some (PyStr ("{" +:+ quoted "a" +:+ ": 1}")).
Proof.
  apply (metadata_round_trip Sample.disk EchoServer.empty [] Sample.stream
           (Some (PyStr "a.txt")) None None (PyStr "asset-0")).
  reflexivity.
Defined.

Lemma new_events_same {S} (σ σ' : S) (tr : list event) :
  new_events (World σ tr) (World σ' tr) = [].
Proof. unfold new_events; simpl. by rewrite drop_all. Qed.

Lemma new_events_more {S} (σ σ' : S) (tr evs : list event) :
  new_events (World σ tr) (World σ' (tr ++ evs)) = evs.
Proof. apply (new_events_app (World σ tr)). Qed.

Ltac settle_events :=
  simpl; rewrite <- ?app_assoc; rewrite ?new_events_more, ?new_events_same; simpl.

(** Every stub call [add_asset] makes is one [add_asset] request, built
    from the resolved content, the type and bucket arguments (or their
    defaults) and the JSON text of the effective metadata. *)
Lemma add_asset_requests
    {S} (fs : filesystem) (self : Client.t S) (pfile : pyval)
    (filename filetype metadata bucket_name : option pyval) (w : world S)
    (m : rpc_method) (request : message) :
  EvRpc m request ∈ new_events w
    (Client.add_asset fs self pfile filename filetype metadata bucket_name w).2 →
  m = m_add_asset ∧
  ∃ file_content name enc,
    json_encode (effective_metadata (default (PyStr EmptyString) metadata)) = Some enc ∧
    request = opac_pb2.Asset file_content name (default (PyStr EmptyString) filetype)
                (PyStr enc) (default (PyStr "UNKNOW") bucket_name).
Proof.
  destruct w as [σ tr]. unfold effective_metadata. unfold_client. simpl.
  destruct (truthy (default (PyStr EmptyString) metadata)); simpl;
    [destruct (isinstance_dict (default (PyStr EmptyString) metadata)); simpl |].
  all: destruct pfile; simpl; repeat branch; settle_events.
  all: try (intros Hin; by apply elem_of_nil in Hin).
  all: try (intros Hin; apply elem_of_cons in Hin as [Hin | Hin];
            [discriminate Hin | by apply elem_of_nil in Hin]).
  all: intros Hin; apply elem_of_cons in Hin as [[= -> ->] | Hin];
    [| by apply elem_of_nil in Hin].
  all: split; [done |]; eauto.
Qed.

(** C8 as stated does not hold: with no bucket name given, the bucket field
    on the wire is the string [UNKNOW], six letters, not [UNKNOWN]. *)
Lemma default_bucket_counterexample :
  let request := opac_pb2.Asset (PyBytes Sample.abc) (PyStr "a.txt")
                   (PyStr EmptyString) (PyStr "{}") (PyStr "UNKNOW") in
  trace (Client.add_asset ∅ EchoServer.client Sample.stream (Some (PyStr "a.txt"))
           None None None EchoServer.start).2
  = [EvRpc m_add_asset request] ∧
  request !! "bucket" = Some (PyStr "UNKNOW") ∧
  request !! "bucket" ≠ Some (PyStr "UNKNOWN").
Proof.
  split; [reflexivity |]. split; [reflexivity |].
  vm_compute. discriminate.
Qed.

(** C8, amended.  When the caller gives no bucket name, every request
    [add_asset] sends carries the bucket [UNKNOW]. *)
Theorem default_bucket_is_UNKNOW
    {S} (fs : filesystem) (self : Client.t S) (pfile : pyval)
    (filename filetype metadata : option pyval) (w : world S)
    (m : rpc_method) (request : message) :
  EvRpc m request ∈ new_events w
    (Client.add_asset fs self pfile filename filetype metadata None w).2 →
  m = m_add_asset ∧ request !! "bucket" = Some (PyStr "UNKNOW").
Proof.
  intros Hin. apply add_asset_requests in Hin as (-> & file & name & enc & _ & ->).
  split; [done |]. apply lookup_insert_eq.
Qed.

Lemma default_bucket_is_UNKNOW_witness :
  EvRpc m_add_asset
    (opac_pb2.Asset (PyBytes Sample.abc) (PyStr "report.pdf") (PyStr EmptyString)
       (PyStr "{}") (PyStr "UNKNOW"))
  ∈ new_events EchoServer.start
      (Client.add_asset Sample.disk EchoServer.client (PyStr "/srv/docs/report.pdf")
         None None None None EchoServer.start).2 ∧
  opac_pb2.Asset (PyBytes Sample.abc) (PyStr "report.pdf") (PyStr EmptyString)
    (PyStr "{}") (PyStr "UNKNOW") !! "bucket" = Some (PyStr "UNKNOW").
Proof.
  assert (EvRpc m_add_asset
            (opac_pb2.Asset (PyBytes Sample.abc) (PyStr "report.pdf")
               (PyStr EmptyString) (PyStr "{}") (PyStr "UNKNOW"))
          ∈ new_events EchoServer.start
              (Client.add_asset Sample.disk EchoServer.client
                 (PyStr "/srv/docs/report.pdf") None None None None
                 EchoServer.start).2) as Hin.
  { vm_compute. apply list_elem_of_here. }
  split; [exact Hin |].
  exact (proj2 (default_bucket_is_UNKNOW Sample.disk EchoServer.client
                  (PyStr "/srv/docs/report.pdf") None None None EchoServer.start
                  m_add_asset _ Hin)).
Defined.

(** C9. When the content source is the path of a readable regular file
    (and the metadata argument is falsy or a serialisable mapping, so that
    the call reaches the wire), the one request [add_asset] sends carries as
    filename the base name of the path and as file the bytes of that file,
    whatever filename the caller gave. *)
Theorem add_asset_path_sends_basename
    {S} (fs : filesystem) (self : Client.t S) (path : string) (fp : file)
    (filename filetype metadata bucket_name : option pyval) (enc : string)
    (w : world S) :
  fs !! path = Some fp →
  readable fp = true →
  isinstance_dict (effective_metadata (default (PyStr EmptyString) metadata)) = true →
  json_encode (effective_metadata (default (PyStr EmptyString) metadata)) = Some enc →
  let asset := opac_pb2.Asset (PyBytes (content fp)) (PyStr (basename path))
                 (default (PyStr EmptyString) filetype) (PyStr enc)
                 (default (PyStr "UNKNOW") bucket_name) in
  new_events w
    (Client.add_asset fs self (PyStr path) filename filetype metadata bucket_name w).2
  = [EvRpc m_add_asset asset] ∧
  asset !! "filename" = Some (PyStr (basename path)).
Proof.
  intros Hfile Hread Hdict Henc asset. split; [| reflexivity].
  destruct w as [σ tr]. unfold effective_metadata in *. unfold_client. simpl.
  rewrite Hfile, Hread. simpl.
  destruct (truthy (default (PyStr EmptyString) metadata)); simpl;
    rewrite ?Hdict; simpl; rewrite ?Henc; simpl.
  - fold asset. destruct (AssetServiceStub.add_asset _ _ _) as [[? | ?] ?];
      by settle_events.
  - simpl in Henc. injection Henc as <-. fold asset.
    destruct (AssetServiceStub.add_asset _ _ _) as [[? | ?] ?]; by settle_events.
Qed.

Lemma add_asset_path_sends_basename_witness :
  new_events EchoServer.start
    (Client.add_asset Sample.disk EchoServer.client (PyStr "/srv/docs/report.pdf")
       (Some (PyStr "given-name.txt")) None (Some Sample.a1) None EchoServer.start).2
  = [EvRpc m_add_asset
       (opac_pb2.Asset (PyBytes Sample.abc) (PyStr "report.pdf") (PyStr EmptyString)
          (PyStr ("{" +:+ quoted "a" +:+ ": 1}")) (PyStr "UNKNOW"))].
Proof.
  apply (add_asset_path_sends_basename Sample.disk EchoServer.client
           "/srv/docs/report.pdf" (File true Sample.abc)
           (Some (PyStr "given-name.txt")) None (Some Sample.a1) None
           ("{" +:+ quoted "a" +:+ ": 1}") EchoServer.start);
    reflexivity.
Defined.

(** Go through a membership in an explicit list of events: elements of
    another shape are discarded, a match replaces the request. *)
Ltac scan H :=
  first
    [ by apply elem_of_nil in H
    | apply elem_of_cons in H as [H | H];
      [ first [discriminate H | injection H as ->] | scan H ] ].



(** * Further properties of the client *)

Set Warnings "-clear-no-such-hyp".

(** X1. When the content source of [add_asset] is a string that does not
    name a readable regular file, and the metadata argument is falsy or a
    mapping, [add_asset] raises [IOError] before any stub call, whatever the
    other arguments are.  The message of the exception is the template
    itself, its [%s] not filled in; the path goes to the log record only. *)
Theorem add_asset_unreadable_path_raises_IOError
    {S} (fs : filesystem) (self : Client.t S) (path : string)
    (filename filetype metadata bucket_name : option pyval) (w : world S) :
  Client.os_path_isfile fs path && Client.os_access_R_OK fs path = false →
  isinstance_dict (effective_metadata (default (PyStr EmptyString) metadata)) = true →
  let msg := "The file pointed: (%s) is not a file or is unreadable." in
  Client.add_asset fs self (PyStr path) filename filetype metadata bucket_name w
  = (Raise (Exn IOError msg),
     World (server w) (trace w ++ [EvLog LError msg [PyStr path]])).
Proof.
  intros Hbad Hdict msg. unfold effective_metadata in Hdict.
  unfold Client.add_asset, Client.read_path, Client.log, emit, raise, mbind,
    M_bind, mret, M_ret. simpl.
  destruct (truthy (default (PyStr EmptyString) metadata)); simpl;
    rewrite ?Hdict; simpl; by rewrite Hbad.
Qed.

Lemma add_asset_unreadable_path_witness :
  (Client.add_asset Sample.disk EchoServer.client (PyStr "/srv/private.key")
     (Some (PyStr "key.pem")) None (Some Sample.a1) None EchoServer.start).1
  = Raise (Exn IOError "The file pointed: (%s) is not a file or is unreadable.").
Proof.
  by rewrite (add_asset_unreadable_path_raises_IOError Sample.disk EchoServer.client
                "/srv/private.key" (Some (PyStr "key.pem")) None (Some Sample.a1)
                None EchoServer.start eq_refl eq_refl).
Defined.

(** X2. [update_asset] on an existing asset, with a metadata argument that
    is falsy or a serialisable mapping and a content source that is a string
    not naming a readable regular file, raises [IOError]; the existence
    probe is the only stub call, no update reaches the server. *)
Theorem update_asset_unreadable_path_raises_IOError
    {S} (fs : filesystem) (self : Client.t S) (uuid found : pyval) (σ' : S)
    (path : string) (filename filetype metadata bucket_name : option pyval)
    (enc : string) (w : world S) :
  isinstance_string_types uuid = true →
  AssetServiceStub.exists_asset (Client.stubAsset self) (opac_pb2.TaskId uuid) (server w)
    = (Ret found, σ') →
  truthy found = true →
  isinstance_dict (effective_metadata (default PyNone metadata)) = true →
  json_encode (effective_metadata (default PyNone metadata)) = Some enc →
  Client.os_path_isfile fs path && Client.os_access_R_OK fs path = false →
  let msg := "The file pointed: (%s) is not a file or is unreadable." in
  Client.update_asset fs self uuid (Some (PyStr path)) filename filetype metadata
    bucket_name w
  = (Raise (Exn IOError msg),
     World σ' (trace w ++ [EvRpc m_exists_asset (opac_pb2.TaskId uuid);
                           EvLog LError msg [PyStr path]])).
Proof.
  intros Hstr Hprobe Hfound Hdict Henc Hbad msg. unfold effective_metadata in *.
  unfold Client.update_asset, Client.require_string, Client.read_path,
    Client.json_dumps, Client.log, call, emit, raise, mbind, M_bind, mret, M_ret.
  simpl. rewrite Hstr. simpl. rewrite Hprobe, Hfound. simpl.
  destruct (truthy (default PyNone metadata)); simpl;
    rewrite ?Hdict; simpl; rewrite ?Henc; simpl; rewrite Hbad; simpl;
    by rewrite <- app_assoc.
Qed.

Lemma update_asset_unreadable_path_witness :
  (Client.update_asset Sample.disk EchoServer.client (PyStr "asset-0")
     (Some (PyStr "/srv/docs/missing.pdf")) None None None None Sample.stored).1
  = Raise (Exn IOError "The file pointed: (%s) is not a file or is unreadable.").
Proof.
  by rewrite (update_asset_unreadable_path_raises_IOError Sample.disk
                EchoServer.client (PyStr "asset-0") (PyBool true)
                (server Sample.stored) "/srv/docs/missing.pdf" None None None None
                "{}" Sample.stored eq_refl eq_refl eq_refl eq_refl eq_refl eq_refl).
Defined.

(** X3. Unless a refresh is asked for, constructing a client requests
    nothing over HTTP and reloads nothing: all it does is open the channel
    to [host:port], each taken from the argument or, when left out, from the
    module-level constant. *)
Theorem init_without_refresh_only_opens_channel
    {S} (environ : gmap string string) (http : string → option string)
    (stub_a : string → AssetServiceStub.t S) (stub_b : string → BucketServiceStub.t S)
    (host port proto_http_port proto_path : option string)
    (update_pb_class : option bool) (w : world S) :
  default false update_pb_class = false →
  let target := default (HOST_NAME environ) host +:+ ":" +:+
                default (HOST_PORT environ) port in
  Client.__init__ environ http stub_a stub_b host port proto_http_port proto_path
    update_pb_class w
  = (Ret (Client.New target (stub_a target) (stub_b target)),
     World (server w) (trace w ++ [EvChannel target])).
Proof.
  intros Hoff target. unfold Client.__init__, emit, mbind, M_bind, mret, M_ret.
  by rewrite Hoff.
Qed.

Lemma init_without_refresh_witness :
  (Client.__init__ {[ "OPAC_SSM_GRPC_SERVER_PORT" := "6000" ]} Fixture.unreachable
     (λ _, EchoServer.stubAsset) (λ _, EchoServer.stubBucket)
     (Some "ssm.example.org") None None None None EchoServer.start).2
  = World EchoServer.empty [EvChannel "ssm.example.org:6000"].
Proof.
  by rewrite (init_without_refresh_only_opens_channel
                {[ "OPAC_SSM_GRPC_SERVER_PORT" := "6000" ]} Fixture.unreachable
                (λ _, EchoServer.stubAsset) (λ _, EchoServer.stubBucket)
                (Some "ssm.example.org") None None None None EchoServer.start
                eq_refl).
Defined.

(** X4. When a refresh is asked for and the schema request fails, the
    constructor raises the fetch error and stops there: nothing is compiled
    or reloaded and no channel is opened. *)
Theorem init_refresh_failure_opens_no_channel
    {S} (environ : gmap string string) (http : string → option string)
    (stub_a : string → AssetServiceStub.t S) (stub_b : string → BucketServiceStub.t S)
    (host port proto_http_port proto_path : option string) (w : world S) :
  http (proto_url (HOST_NAME environ) (HTTP_PROTO_PORT environ) (PROTO_PATH environ))
    = None →
  let url := proto_url (HOST_NAME environ) (HTTP_PROTO_PORT environ)
               (PROTO_PATH environ) in
  Client.__init__ environ http stub_a stub_b host port proto_http_port proto_path
    (Some true) w
  = (Raise (Exn SchemaFetchError url), World (server w) (trace w ++ [EvHttpGet url])).
Proof.
  intros Hfail url. subst url.
  unfold Client.__init__, generate_pb_files, emit, raise, mbind, M_bind, mret, M_ret.
  cbn [default]. by rewrite Hfail.
Qed.

Lemma init_refresh_failure_witness :
  (Client.__init__ ∅ Fixture.unreachable (λ _, EchoServer.stubAsset)
     (λ _, EchoServer.stubBucket) None None None None (Some true)
     EchoServer.start).2
  = World EchoServer.empty [EvHttpGet "http://localhost:8001/static/proto/opac.proto"].
Proof.
  by rewrite (init_refresh_failure_opens_no_channel ∅ Fixture.unreachable
                (λ _, EchoServer.stubAsset) (λ _, EchoServer.stubBucket)
                None None None None EchoServer.start eq_refl).
Defined.

(** X5. For string arguments, [get_asset], [get_asset_info],
    [get_task_state], [add_bucket] and [update_bucket] are one stub call
    each, with no existence probe, also for the empty string.  An exception
    comes out of them exactly when the stub raises it, and it is the stub's
    exception, not wrapped. *)
Theorem string_argument_operations_forward_one_call
    {S} (self : Client.t S) (id name new_name : string) (w : world S) :
  forwards m_get_asset (AssetServiceStub.get_asset (Client.stubAsset self))
    (opac_pb2.TaskId (PyStr id)) w (Client.get_asset self (PyStr id) w) ∧
  forwards m_get_asset_info (AssetServiceStub.get_asset_info (Client.stubAsset self))
    (opac_pb2.TaskId (PyStr id)) w (Client.get_asset_info self (PyStr id) w) ∧
  forwards m_get_task_state (AssetServiceStub.get_task_state (Client.stubAsset self))
    (opac_pb2.TaskId (PyStr id)) w (Client.get_task_state self (PyStr id) w) ∧
  forwards m_add_bucket (BucketServiceStub.add_bucket (Client.stubBucket self))
    (opac_pb2.BucketName (PyStr name) None) w
    (Client.add_bucket self (PyStr name) w) ∧
  forwards m_add_update (BucketServiceStub.add_update (Client.stubBucket self))
    (opac_pb2.BucketName (PyStr name) (Some (PyStr new_name))) w
    (Client.update_bucket self (PyStr name) (PyStr new_name) w).
Proof.
  unfold forwards. unfold_client. simpl.
  repeat split; intros;
    match goal with
    | |- context [?f ?request (server w)] =>
        destruct (f request (server w)) as [[answer | e'] σ']
    end; simpl in *; congruence.
Qed.





(** Read a field of an explicit message: through the insertions down to the
    one for the key, or to the empty map. *)
Ltac field :=
  repeat first
    [ rewrite lookup_insert_eq
    | rewrite lookup_insert_ne by done
    | rewrite lookup_empty ].

(** X8. A run of [update_asset], [remove_asset] or [remove_bucket] either
    makes no mutating stub call at all, or consists of exactly two stub
    calls: the existence probe for the given id or name, answered with a
    truthy value, and then the one mutation. *)
Theorem mutation_only_after_true_probe
    {S} (fs : filesystem) (self : Client.t S) (key : pyval)
    (pfile filename filetype metadata bucket_name : option pyval) (w : world S) :
  (let evs := new_events w (Client.update_asset fs self key pfile filename filetype
                              metadata bucket_name w).2 in
   mutations evs = [] ∨
   ∃ found σ' request,
     isinstance_string_types key = true ∧
     AssetServiceStub.exists_asset (Client.stubAsset self) (opac_pb2.TaskId key)
       (server w) = (Ret found, σ') ∧
     truthy found = true ∧
     evs = [EvRpc m_exists_asset (opac_pb2.TaskId key);
            EvRpc m_update_asset request]) ∧
  (let evs := new_events w (Client.remove_asset self key w).2 in
   mutations evs = [] ∨
   ∃ found σ',
     isinstance_string_types key = true ∧
     AssetServiceStub.exists_asset (Client.stubAsset self) (opac_pb2.TaskId key)
       (server w) = (Ret found, σ') ∧
     truthy found = true ∧
     evs = [EvRpc m_exists_asset (opac_pb2.TaskId key);
            EvRpc m_remove_asset (opac_pb2.TaskId key)]) ∧
  (let evs := new_events w (Client.remove_bucket self key w).2 in
   mutations evs = [] ∨
   ∃ found σ',
     isinstance_string_types key = true ∧
     BucketServiceStub.exists_bucket (Client.stubBucket self)
       (opac_pb2.BucketName key None) (server w) = (Ret found, σ') ∧
     truthy found = true ∧
     evs = [EvRpc m_exists_bucket (opac_pb2.BucketName key None);
            EvRpc m_remove_bucket (opac_pb2.BucketName key None)]).
Proof.
  destruct w as [σ tr]. split; [| split]; intros evs; subst evs;
    unfold_client; simpl.
  - destruct (isinstance_string_types key); simpl; [| left; by settle_events].
    destruct (AssetServiceStub.exists_asset _ _ _) as [[found | e] σ'] eqn:Hprobe;
      simpl; [| left; by settle_events].
    destruct (truthy found) eqn:Hfound; simpl; [| left; by settle_events].
    destruct (default PyNone pfile); simpl; repeat branch; settle_events;
      first [by left | right; eauto 10].
  - destruct (isinstance_string_types key); simpl; [| left; by settle_events].
    destruct (AssetServiceStub.exists_asset _ _ _) as [[found | e] σ'] eqn:Hprobe;
      simpl; [| left; by settle_events].
    destruct (truthy found) eqn:Hfound; simpl; [| left; by settle_events].
    destruct (AssetServiceStub.remove_asset _ _ _) as [[ack | e] σ''];
      settle_events; right; eauto 10.
  - destruct (isinstance_string_types key); simpl; [| left; by settle_events].
    destruct (BucketServiceStub.exists_bucket _ _ _) as [[found | e] σ'] eqn:Hprobe;
      simpl; [| left; by settle_events].
    destruct (truthy found) eqn:Hfound; simpl; [| left; by settle_events].
    destruct (BucketServiceStub.remove_bucket _ _ _) as [[ack | e] σ''];
      settle_events; right; eauto 10.
Qed.

(** Every update request is the dictionary of [update_params] for some
    metadata field and some resolution of the content source. *)
Lemma update_asset_request_shape
    {S} (fs : filesystem) (self : Client.t S) (uuid : pyval)
    (pfile filename filetype metadata bucket_name : option pyval) (w : world S)
    (request : message) :
  EvRpc m_update_asset request ∈ new_events w
    (Client.update_asset fs self uuid pfile filename filetype metadata bucket_name w).2 →
  ∃ field resolved,
    request = update_params field resolved (default PyNone filetype)
                (default PyNone bucket_name) ∧
    ((is_None (default PyNone pfile) = true ∧ resolved = None) ∨
     (is_None (default PyNone pfile) = false ∧
      ∃ name file_content,
        resolved = Some (name, file_content) ∧
        resolves_to fs (default PyNone pfile) (default PyNone filename) name
          file_content)).
Proof.
  destruct w as [σ tr]. unfold_client. simpl.
  destruct (isinstance_string_types uuid); simpl;
    [| by settle_events; intros Hin; scan Hin].
  destruct (AssetServiceStub.exists_asset _ _ _) as [[found | e] σ'];
    simpl; [| by settle_events; intros Hin; scan Hin].
  destruct (truthy found); simpl; [| by settle_events; intros Hin; scan Hin].
  destruct (default PyNone pfile); simpl; repeat branch; settle_events.
  all: intros Hin; scan Hin.
  all: unfold update_params;
    repeat match goal with H : truthy _ = _ |- _ => rewrite H; clear H end.
  all: cbn [is_None].
  all: match goal with
       | |- ∃ _ _, ?request = _ ∧ _ =>
           match request with
           | context [<["metadata" := ?field]> ∅] =>
               match request with
               | context [<["filename" := ?name]> (<["file" := ?body]> _)] =>
                   exists field, (Some (name, body)); split;
                   [reflexivity
                   | right; split; [reflexivity |]; exists name, body;
                     split; [reflexivity |]; simpl; eauto ]
               | _ => exists field, None; split; [reflexivity | by left]
               end
           end
       end.
Qed.

(** X9. An update request holds no other fields than metadata, file,
    filename, type and bucket, and always the metadata field.  In
    particular it never carries the uuid the caller gave: neither an [id]
    nor a [uuid] field is set. *)
Theorem update_request_never_names_the_asset
    {S} (fs : filesystem) (self : Client.t S) (uuid : pyval)
    (pfile filename filetype metadata bucket_name : option pyval) (w : world S)
    (request : message) :
  EvRpc m_update_asset request ∈ new_events w
    (Client.update_asset fs self uuid pfile filename filetype metadata bucket_name w).2 →
  dom request ⊆ update_keys ∧
  "metadata" ∈ dom request ∧
  request !! "id" = None ∧
  request !! "uuid" = None.
Proof.
  intros Hin.
  apply update_asset_request_shape in Hin as (field & resolved & -> & _).
  unfold update_params, update_keys.
  destruct resolved as [[name body] |], (truthy (default PyNone filetype)),
    (truthy (default PyNone bucket_name));
    rewrite ?dom_insert_L, dom_empty_L;
    (split; [set_solver | split; [set_solver | split; by field]]).
Qed.
Lemma update_request_never_names_the_asset_witness :
  (<["type" := PyStr "image/png"]> {[ "metadata" := PyDict [] ]} : message)
    !! "uuid" = None.
Proof.
  apply (update_request_never_names_the_asset Sample.disk EchoServer.client
           (PyStr "asset-0") None None (Some (PyStr "image/png")) None None
           Sample.stored).
  vm_compute. apply list_elem_of_further, list_elem_of_here.
Defined.

(** X10. The type and bucket fields of an update request are set exactly
    when the caller gave a truthy value, which is then the field: an empty
    string (or any falsy value) leaves the field out, so a type or bucket
    cannot be cleared through [update_asset]. *)
Theorem update_request_type_and_bucket
    {S} (fs : filesystem) (self : Client.t S) (uuid : pyval)
    (pfile filename filetype metadata bucket_name : option pyval) (w : world S)
    (request : message) :
  EvRpc m_update_asset request ∈ new_events w
    (Client.update_asset fs self uuid pfile filename filetype metadata bucket_name w).2 →
  request !! "type"
    = (if truthy (default PyNone filetype) then Some (default PyNone filetype)
       else None) ∧
  request !! "bucket"
    = (if truthy (default PyNone bucket_name) then Some (default PyNone bucket_name)
       else None).
Proof.
  intros Hin.
  apply update_asset_request_shape in Hin as (field & resolved & -> & _).
  unfold update_params.
  destruct resolved as [[name body] |], (truthy (default PyNone filetype)),
    (truthy (default PyNone bucket_name)); split; by field.
Qed.

Lemma update_request_type_and_bucket_witness :
  (<["type" := PyStr "image/png"]> {[ "metadata" := PyDict [] ]} : message)
    !! "bucket" = None.
Proof.
  apply (update_request_type_and_bucket Sample.disk EchoServer.client
           (PyStr "asset-0") None None (Some (PyStr "image/png")) None
           (Some (PyStr EmptyString)) Sample.stored).
  vm_compute. apply list_elem_of_further, list_elem_of_here.
Defined.



(** Every request of [add_asset] is the [Asset] message of a resolved
    content source, the type and bucket arguments (or their defaults) and
    the JSON text of the effective metadata, which is a mapping. *)
Lemma add_asset_request_source
    {S} (fs : filesystem) (self : Client.t S) (pfile : pyval)
    (filename filetype metadata bucket_name : option pyval) (w : world S)
    (m : rpc_method) (request : message) :
  EvRpc m request ∈ new_events w
    (Client.add_asset fs self pfile filename filetype metadata bucket_name w).2 →
  ∃ name body enc,
    request = opac_pb2.Asset body name (default (PyStr EmptyString) filetype)
                (PyStr enc) (default (PyStr "UNKNOW") bucket_name) ∧
    resolves_to fs pfile (default (PyStr EmptyString) filename) name body ∧
    isinstance_dict (effective_metadata (default (PyStr EmptyString) metadata)) = true ∧
    json_encode (effective_metadata (default (PyStr EmptyString) metadata)) = Some enc.
Proof.
  destruct w as [σ tr]. unfold effective_metadata. unfold_client. simpl.
  destruct (truthy (default (PyStr EmptyString) metadata)); simpl;
    [destruct (isinstance_dict (default (PyStr EmptyString) metadata)) eqn:Hdict;
     simpl |].
  all: destruct pfile; simpl; repeat branch; settle_events.
  all: intros Hin; scan Hin; subst request.
  all: match goal with
       | |- ∃ _ _ _, opac_pb2.Asset ?body ?name _ (PyStr ?enc) _ = _ ∧ _ =>
           exists name, body, enc; split; [reflexivity |];
           split; [simpl; eauto | split; [reflexivity | done]]
       end.
Qed.



Lemma basename_from_no_slash (acc p : string) :
  has_slash p = false → basename_from acc p = acc.
Proof.
  revert acc. induction p as [| c rest IH]; intros acc Hp; [done |].
  simpl in *. apply orb_false_iff in Hp as [-> Hrest]. by apply IH.
Qed.

Lemma basename_from_suffix (acc p : string) :
  has_slash p = true →
  has_slash (basename_from acc p) = false ∧
  ∃ dir, p = dir +:+ String "/"%char (basename_from acc p).
Proof.
  revert acc. induction p as [| c rest IH]; intros acc Hp; [done |].
  simpl in *. destruct (Ascii.eqb c "/"%char) eqn:Hc; simpl in Hp.
  - apply Ascii.eqb_eq in Hc as ->.
    destruct (has_slash rest) eqn:Hrest.
    + destruct (IH rest eq_refl) as (Hfree & dir & Hdir). split; [done |].
      exists (String "/"%char dir). exact (f_equal (String "/"%char) Hdir).
    + rewrite (basename_from_no_slash rest rest Hrest). split; [done |].
      by exists EmptyString.
  - destruct (IH acc Hp) as (Hfree & dir & Hdir). split; [done |].
    exists (String c dir). exact (f_equal (String c) Hdir).
Qed.

(** X13. [basename] gives the part of a path after its last slash: the
    result holds no slash; a path without a slash is its own base name; a
    path with one is some directory part, a slash, and the base name. *)
Theorem basename_is_the_part_after_the_last_slash (p : string) :
  has_slash (basename p) = false ∧
  (if has_slash p then ∃ dir, p = dir +:+ String "/"%char (basename p)
   else basename p = p).
Proof.
  unfold basename. destruct (has_slash p) eqn:Hp.
  - destruct (basename_from_suffix p p Hp) as [Hfree Hdir]. by split.
  - rewrite (basename_from_no_slash p p Hp). by split.
Qed.

(** X14. Taking the base name undoes joining a directory and a name: for
    a name without a slash, [basename (dir + "/" + name)] is the name,
    whatever the directory part. *)
Theorem basename_of_joined_path (dir name : string) :
  has_slash name = false →
  basename (dir +:+ String "/"%char name) = name.
Proof.
  intros Hname. unfold basename.
  generalize (dir +:+ String "/"%char name) at 1. intros acc. revert acc.
  induction dir as [| c rest IH]; intros acc; simpl.
  - by apply basename_from_no_slash.
  - destruct (Ascii.eqb c "/"%char); apply IH.
Qed.

Lemma basename_of_joined_path_witness :
  basename ("/srv/docs" +:+ String "/"%char "report.pdf") = "report.pdf".
Proof. apply (basename_of_joined_path "/srv/docs" "report.pdf"). reflexivity. Defined.

Lemma append_shift (dir : string) (c : ascii) (s : string) :
  dir +:+ String c s = (dir +:+ String c EmptyString) +:+ s.
Proof.
  induction dir as [| a rest IH]; [done |].
  change (String a (rest +:+ String c s)
          = String a ((rest +:+ String c EmptyString) +:+ s)).
  by rewrite IH.
Qed.

(** X15. The filename [add_asset] sends for a path content source never
    holds a slash, and the path ends with it. *)
Theorem add_asset_path_filename_has_no_slash
    {S} (fs : filesystem) (self : Client.t S) (path : string)
    (filename filetype metadata bucket_name : option pyval) (w : world S)
    (m : rpc_method) (request : message) :
  EvRpc m request ∈ new_events w
    (Client.add_asset fs self (PyStr path) filename filetype metadata bucket_name w).2 →
  ∃ name dir,
    request !! "filename" = Some (PyStr name) ∧
    has_slash name = false ∧
    path = dir +:+ name.
Proof.
  intros Hin.
  apply add_asset_request_source in Hin
    as (name & body & enc & -> & (fp & _ & _ & -> & _) & _).
  unfold basename. destruct (has_slash path) eqn:Hslash.
  - destruct (basename_from_suffix path path Hslash) as (Hfree & dir & Hdir).
    exists (basename_from path path), (dir +:+ "/").
    split; [unfold opac_pb2.Asset; by field |]. split; [done |].
    rewrite Hdir at 1. apply append_shift.
  - rewrite (basename_from_no_slash path path Hslash).
    exists path, EmptyString.
    split; [unfold opac_pb2.Asset; by field |]. by split.
Qed.

Lemma add_asset_path_filename_has_no_slash_witness :
  ∃ name dir,
    opac_pb2.Asset (PyBytes Sample.abc) (PyStr "report.pdf") (PyStr EmptyString)
      (PyStr "{}") (PyStr "UNKNOW") !! "filename" = Some (PyStr name) ∧
    has_slash name = false ∧
    "/srv/docs/report.pdf" = dir +:+ name.
Proof.
  apply (add_asset_path_filename_has_no_slash Sample.disk EchoServer.client
           "/srv/docs/report.pdf" None None None None EchoServer.start m_add_asset).
  vm_compute. apply list_elem_of_here.
Defined.

(** X16. [add_asset] makes at most one stub call.  Either it makes none,
    and then it raised and left the server as it was; or the single
    [add_asset] request is everything it added to the trace. *)
Theorem add_asset_calls_at_most_once
    {S} (fs : filesystem) (self : Client.t S) (pfile : pyval)
    (filename filetype metadata bucket_name : option pyval) (w : world S) :
  let r := Client.add_asset fs self pfile filename filetype metadata bucket_name w in
  (remote_calls (new_events w r.2) = [] ∧ server r.2 = server w ∧
   ∃ e, r.1 = Raise e) ∨
  (∃ asset, new_events w r.2 = [EvRpc m_add_asset asset]).
Proof.
  destruct w as [σ tr]. unfold_client. simpl.
  destruct (truthy (default (PyStr EmptyString) metadata)); simpl;
    [destruct (isinstance_dict (default (PyStr EmptyString) metadata)); simpl |].
  all: destruct pfile; simpl; repeat branch; settle_events.
  all: first [by left; eauto | by right; eauto].
Qed.

Lemma json_encode_dict_braces (v : pyval) (enc : string) :
  isinstance_dict v = true → json_encode v = Some enc →
  ∃ body, enc = "{" +:+ body +:+ "}".
Proof.
  destruct v; try done. intros _. simpl.
  match goal with |- context [mbind _ ?encoded] => destruct encoded as [items |] end;
    simpl; [| done].
  intros [= <-]. by eexists.
Qed.

(** X17. The metadata field of every [add_asset] request is a string, the
    text of a JSON object: it opens with a brace and closes with one. *)
Theorem add_asset_metadata_is_json_object_text
    {S} (fs : filesystem) (self : Client.t S) (pfile : pyval)
    (filename filetype metadata bucket_name : option pyval) (w : world S)
    (m : rpc_method) (request : message) :
  EvRpc m request ∈ new_events w
    (Client.add_asset fs self pfile filename filetype metadata bucket_name w).2 →
  ∃ body, request !! "metadata" = Some (PyStr ("{" +:+ body +:+ "}")).
Proof.
  intros Hin.
  apply add_asset_request_source in Hin
    as (name & content & enc & -> & _ & Hdict & Henc).
  destruct (json_encode_dict_braces _ _ Hdict Henc) as [body ->].
  exists body. unfold opac_pb2.Asset. by field.
Qed.

Lemma add_asset_metadata_is_json_object_text_witness :
  ∃ body,
    opac_pb2.Asset (PyBytes Sample.abc) (PyStr "a.txt") (PyStr EmptyString)
      (PyStr ("{" +:+ quoted "a" +:+ ": 1}")) (PyStr "UNKNOW") !! "metadata"
    = Some (PyStr ("{" +:+ body +:+ "}")).
Proof.
  apply (add_asset_metadata_is_json_object_text Sample.disk EchoServer.client
           Sample.stream (Some (PyStr "a.txt")) None (Some Sample.a1) None
           EchoServer.start m_add_asset).
  vm_compute. apply list_elem_of_here.
Defined.



(** X19. A forced refresh that succeeds runs, in this order: the schema
    request to the address of the module-level constants, the compilation of
    what came back, the reload, and only then the opening of the channel to
    the [host:port] of the arguments. *)
Theorem init_with_refresh_fetches_then_connects
    {S} (environ : gmap string string) (http : string → option string)
    (stub_a : string → AssetServiceStub.t S) (stub_b : string → BucketServiceStub.t S)
    (host port proto_http_port proto_path : option string) (proto : string)
    (w : world S) :
  http (proto_url (HOST_NAME environ) (HTTP_PROTO_PORT environ) (PROTO_PATH environ))
    = Some proto →
  let url := proto_url (HOST_NAME environ) (HTTP_PROTO_PORT environ)
               (PROTO_PATH environ) in
  let target := default (HOST_NAME environ) host +:+ ":" +:+
                default (HOST_PORT environ) port in
  Client.__init__ environ http stub_a stub_b host port proto_http_port proto_path
    (Some true) w
  = (Ret (Client.New target (stub_a target) (stub_b target)),
     World (server w)
       (trace w ++ [EvHttpGet url; EvCompile proto; EvReload; EvChannel target])).
Proof.
  intros Hok url target. subst url target.
  unfold Client.__init__, generate_pb_files, emit, raise, mbind, M_bind, mret, M_ret.
  cbn [default]. rewrite Hok. simpl.
  by rewrite <- !app_assoc.
Qed.

Lemma init_with_refresh_witness :
  trace (Client.__init__ {[ "OPAC_SSM_PORT" := "8080" ]} Sample.served
           (λ _, EchoServer.stubAsset) (λ _, EchoServer.stubBucket)
           None (Some "5001") None None (Some true) EchoServer.start).2
  = [EvHttpGet "http://localhost:8080/static/proto/opac.proto";
     EvCompile "syntax = proto3;"; EvReload; EvChannel "localhost:5001"].
Proof.
  by rewrite (init_with_refresh_fetches_then_connects
                {[ "OPAC_SSM_PORT" := "8080" ]} Sample.served
                (λ _, EchoServer.stubAsset) (λ _, EchoServer.stubBucket)
                None (Some "5001") None None "syntax = proto3;" EchoServer.start
                eq_refl).
Defined.



(** X21. Whenever [get_asset] returns, the id was a string, the stub
    answered, and the dictionary returned has exactly the six keys file,
    filename, type, metadata, uuid and bucket, each holding the attribute of
    that name of the answer; the server is left as the stub left it. *)
Theorem get_asset_returns_six_fields
    {S} (self : Client.t S) (id : pyval) (w w' : world S) (result : message) :
  Client.get_asset self id w = (Ret result, w') →
  ∃ asset,
    isinstance_string_types id = true ∧
    AssetServiceStub.get_asset (Client.stubAsset self) (opac_pb2.TaskId id) (server w)
      = (Ret asset, server w') ∧
    dom result = asset_keys ∧
    ∀ key, key ∈ asset_keys → result !! key = Some (msg_attr asset key).
Proof.
  unfold_client. destruct (isinstance_string_types id); simpl; [| done].
  destruct (AssetServiceStub.get_asset _ _ _) as [[asset | e] σ'] eqn:Hget;
    simpl; [| done].
  intros [= <- <-]. exists asset. split; [done |]. split; [done |].
  unfold asset_keys. split.
  - rewrite !dom_insert_L, dom_singleton_L. set_solver.
  - intros key Hkey.
    repeat (apply elem_of_union in Hkey as [Hkey | Hkey]);
      apply elem_of_singleton in Hkey as ->;
      repeat (rewrite lookup_insert_ne by done);
      first [by rewrite lookup_insert_eq | by rewrite lookup_singleton_eq].
Qed.

Lemma get_asset_returns_six_fields_witness :
  ∃ asset,
    isinstance_string_types (PyStr "asset-0") = true ∧
    AssetServiceStub.get_asset (Client.stubAsset EchoServer.client)
      (opac_pb2.TaskId (PyStr "asset-0")) (server Sample.stored)
    = (Ret asset,
       server (Client.get_asset EchoServer.client (PyStr "asset-0") Sample.stored).2) ∧
    dom (<["bucket" := PyStr "UNKNOW"]> (<["uuid" := PyStr "asset-0"]>
        (<["metadata" := PyStr "{}"]> (<["type" := PyStr "text"]>
        (<["filename" := PyStr "a.txt"]>
        ({[ "file" := PyBytes Sample.abc ]} : message)))))) = asset_keys ∧
    ∀ key, key ∈ asset_keys →
      (<["bucket" := PyStr "UNKNOW"]> (<["uuid" := PyStr "asset-0"]>
      (<["metadata" := PyStr "{}"]> (<["type" := PyStr "text"]>
      (<["filename" := PyStr "a.txt"]>
      ({[ "file" := PyBytes Sample.abc ]} : message)))))) !! key
      = Some (msg_attr asset key).
Proof.
  apply (get_asset_returns_six_fields EchoServer.client (PyStr "asset-0")
           Sample.stored).
  reflexivity.
Defined.
